(** * ScentSafe: the Eye Aspect Ratio script [test_asymmetric_eyes.py]

    A shallow embedding of the functions of [test_asymmetric_eyes.py] and the
    properties of the Eye Aspect Ratio (EAR) they compute.

    Numbers.  The script works on Python floats (and on the integer literals
    [320], [240], [380] that are promoted to floats by the first division).
    As the specification does ("a pair of real-valued coordinates"), the
    embedding reads them as real numbers: [+], [-], [*], [/] are the
    operations of [R], without rounding, overflow, infinities or NaN (so the
    [OverflowError] of [**] on floats out of range has no counterpart here).

    Failure.  A Python call either returns a value or raises an exception;
    the embedding makes that explicit with the type [result].  Two built-in
    exceptions can occur in the script: [IndexError] (subscript out of range)
    and [ZeroDivisionError] (float division by zero). *)

From Stdlib Require Import Reals Lra Psatz List.
Import ListNotations.

Open Scope R_scope.

(** ** Exceptions and results *)

(** The exception classes.  [IndexError] and [ZeroDivisionError] are the
    built-in ones that the operations used by the script raise.
    [InvalidInputError] and [DegenerateGeometryError] are the two error kinds
    the specification names; the script defines no exception class of its
    own and no function below ever raises these two. *)
Inductive exception : Set :=
  | IndexError
  | ZeroDivisionError
  | InvalidInputError
  | DegenerateGeometryError.

Inductive result (A : Type) : Type :=
  | Ok (a : A)
  | Raise (e : exception).

Arguments Ok {A} a.
Arguments Raise {A} e.

Definition bind {A B : Type} (c : result A) (k : A -> result B) : result B :=
  match c with
  | Ok a => k a
  | Raise e => Raise e
  end.

Notation "x <- c ;; k" := (bind c (fun x => k))
  (at level 61, c at next level, right associativity).

(** ** Python primitives used by the script *)

(** [l[i]] for a literal index [i >= 0]. *)
Definition index {A : Type} (l : list A) (i : nat) : result A :=
  match nth_error l i with
  | Some a => Ok a
  | None => Raise IndexError
  end.

(** [a / b] on floats: Python checks the divisor before dividing. *)
Definition float_div (a b : R) : result R :=
  if Req_dec_T b 0 then Raise ZeroDivisionError else Ok (a / b).

(** [x ** 2], with the integer literal [2]. *)
Definition pow_two (x : R) : R := x ^ 2.

(** [x ** 0.5], with the float literal [0.5]: the real power
    [exp (0.5 * ln x)] for a positive base, and [0.0] at [0.0].  The script
    applies it to a sum of two squares only; for a negative base Python would
    answer with a complex number, which the embedding does not represent (the
    value [0] there is never used). *)
Definition pow_half (x : R) : R :=
  if Rlt_dec 0 x then Rpower x 0.5 else 0.

(** ** The functions of the script *)

(** A point is the two-element list [[x, y]] and an eye is a list of
    points, as in the source. *)
Definition point : Type := list R.
Definition eye : Type := list point.

Definition generate_eye_points
    (center_x center_y eye_width eye_height : R) : eye :=
  [ [center_x - eye_width / 2; center_y];                    (* Left corner *)
    [center_x + eye_width / 2; center_y];                    (* Right corner *)
    [center_x; center_y - eye_height / 2];                   (* Top center *)
    [center_x; center_y + eye_height / 2];                   (* Bottom center *)
    [center_x - eye_width / 4; center_y - eye_height / 2];   (* Top left *)
    [center_x + eye_width / 4; center_y - eye_height / 2] ]. (* Top right *)

Definition calculate_distance (p1 p2 : point) : result R :=
  a0 <- index p1 0 ;;
  b0 <- index p2 0 ;;
  a1 <- index p1 1 ;;
  b1 <- index p2 1 ;;
  Ok (pow_half (pow_two (a0 - b0) + pow_two (a1 - b1))).

Definition calculate_ear (eye_points : eye) : result R :=
  let p := eye_points in
  p1 <- index p 1 ;;
  p5 <- index p 5 ;;
  A <- calculate_distance p1 p5 ;;
  p2 <- index p 2 ;;
  p4 <- index p 4 ;;
  B <- calculate_distance p2 p4 ;;
  p0 <- index p 0 ;;
  p3 <- index p 3 ;;
  C <- calculate_distance p0 p3 ;;
  float_div (A + B) (2 * C).

Definition calculate_percentage_difference (ear1 ear2 : R) : result R :=
  q <- float_div (Rabs (ear1 - ear2)) ((ear1 + ear2) / 2) ;;
  Ok (q * 100).

(** What the two simulations compute before printing it. *)
Record old_report : Type := OldReport {
  old_left_ear : R;
  old_right_ear : R;
  old_difference : R
}.

Record new_report : Type := NewReport {
  new_left_ear : R;
  new_right_ear : R;
  new_difference : R;
  new_percentage : R
}.

Definition simulate_old_behavior : result old_report :=
  let left_eye_points := generate_eye_points 320 240 20 10 in
  let right_eye_points := generate_eye_points 380 240 20 10 in
  left_ear <- calculate_ear left_eye_points ;;
  right_ear <- calculate_ear right_eye_points ;;
  Ok (OldReport left_ear right_ear (Rabs (left_ear - right_ear))).

Definition simulate_new_behavior : result new_report :=
  let left_eye_points :=
    generate_eye_points 320 240 (20 * 0.95) (10 * 0.92) in
  let right_eye_points :=
    generate_eye_points 380 240 (20 * 1.05) (10 * 1.08) in
  left_ear <- calculate_ear left_eye_points ;;
  right_ear <- calculate_ear right_eye_points ;;
  pd <- calculate_percentage_difference left_ear right_ear ;;
  Ok (NewReport left_ear right_ear (Rabs (left_ear - right_ear)) pd).

(** ** Vocabulary of the properties *)

(** Coordinates of a point and the points of an eye, total versions used in
    statements only. *)
Definition xc (q : point) : R := nth 0 q 0.
Definition yc (q : point) : R := nth 1 q 0.
Definition pt (p : eye) (i : nat) : point := nth i p [].

(** The Euclidean distance of the plane. *)
Definition euclid (q1 q2 : point) : R :=
  sqrt ((xc q1 - xc q2) * (xc q1 - xc q2) + (yc q1 - yc q2) * (yc q1 - yc q2)).

Definition span_A (p : eye) : R := euclid (pt p 1) (pt p 5).
Definition span_B (p : eye) : R := euclid (pt p 2) (pt p 4).
Definition span_C (p : eye) : R := euclid (pt p 0) (pt p 3).

Definition Point2D (q : point) : Prop := length q = 2%nat.

Definition EyeLandmarkSet (p : eye) : Prop :=
  length p = 6%nat /\ Forall Point2D p.


(** The value of the ratio on the generated points of an eye of width [w]
    and height [h], in closed form. *)
Definition generated_ear (w h : R) : R :=
  (sqrt ((w / 4) * (w / 4) + (h / 2) * (h / 2)) + w / 4)
  / (2 * sqrt ((w / 2) * (w / 2) + (h / 2) * (h / 2))).

(** ** Sample inputs *)

(** A hexagonal eye in the landmark order of [calculate_ear]: corners at
    [(0,0)] and [(4,0)], lids at height [1] and [-1]. *)
Definition sample_eye : eye :=
  [ [0; 0]; [1; 1]; [3; 1]; [4; 0]; [3; -1]; [1; -1] ].


(** Seven entries: [sample_eye] followed by one more point. *)
Definition long_eye : eye := sample_eye ++ [ [9; 9] ].

(** Five entries: [sample_eye] without its last point. *)
Definition short_eye : eye :=
  [ [0; 0]; [1; 1]; [3; 1]; [4; 0]; [3; -1] ].

(** ** Further vocabulary *)


(** The inputs [calculate_ear] can read completely: at least six entries,
    the first six with at least two coordinates each. *)
Definition readable (p : eye) : Prop :=
  (6 <= length p)%nat /\ Forall (fun q => (2 <= length q)%nat) (firstn 6 p).

(** The same six landmarks with the two ends of every measured pair
    exchanged (0 with 3, 1 with 5, 2 with 4). *)
Definition swap_ends (p : eye) : eye :=
  [pt p 3; pt p 5; pt p 4; pt p 0; pt p 2; pt p 1].

(** The same six landmarks with the two lid pairs exchanged (1 with 2,
    5 with 4), as when the landmarks of a mirrored eye are numbered from the
    other corner. *)
Definition swap_lids (p : eye) : eye :=
  [pt p 0; pt p 2; pt p 1; pt p 3; pt p 5; pt p 4].


(** ** Arithmetic of the primitives *)

Lemma sum_squares_nonneg (a b : R) : 0 <= pow_two a + pow_two b.
Proof. unfold pow_two. nra. Qed.

Lemma pow_half_sqrt (x : R) : 0 <= x -> pow_half x = sqrt x.
Proof.
  intros Hx. unfold pow_half.
  destruct (Rlt_dec 0 x) as [Hpos | Hnpos].
  - replace 0.5 with (/ 2) by lra. now apply Rpower_sqrt.
  - assert (x = 0) as -> by lra. symmetry. apply sqrt_0.
Qed.

Lemma float_div_ok (a b : R) : b <> 0 -> float_div a b = Ok (a / b).
Proof.
  intros Hb. unfold float_div.
  destruct (Req_dec_T b 0) as [E | _]; [contradiction | reflexivity].
Qed.


(** ** Shape of well-formed inputs *)

Lemma Point2D_inv (q : point) : Point2D q -> exists x y, q = [x; y].
Proof.
  unfold Point2D. intros H.
  destruct q as [| x [| y [| z q]]]; try discriminate.
  now exists x, y.
Qed.

Lemma EyeLandmarkSet_inv (p : eye) :
  EyeLandmarkSet p ->
  exists q0 q1 q2 q3 q4 q5,
    p = [q0; q1; q2; q3; q4; q5] /\
    Point2D q0 /\ Point2D q1 /\ Point2D q2 /\
    Point2D q3 /\ Point2D q4 /\ Point2D q5.
Proof.
  intros [Hlen Hall].
  destruct p as [| q0 [| q1 [| q2 [| q3 [| q4 [| q5 [| q6 p]]]]]]];
    try discriminate.
  exists q0, q1, q2, q3, q4, q5. split; [reflexivity |].
  repeat match goal with
         | H : Forall _ (_ :: _) |- _ => inversion H; subst; clear H
         end.
  repeat split; assumption.
Qed.

(** Replaces a well-formed eye [p], known by [Hp : EyeLandmarkSet p], with
    its six entries. *)
Ltac six_points Hp :=
  let q0 := fresh "q0" in let q1 := fresh "q1" in let q2 := fresh "q2" in
  let q3 := fresh "q3" in let q4 := fresh "q4" in let q5 := fresh "q5" in
  let H0 := fresh "H0" in let H1 := fresh "H1" in let H2 := fresh "H2" in
  let H3 := fresh "H3" in let H4 := fresh "H4" in let H5 := fresh "H5" in
  destruct (EyeLandmarkSet_inv _ Hp)
    as (q0 & q1 & q2 & q3 & q4 & q5 & -> & H0 & H1 & H2 & H3 & H4 & H5).

Lemma EyeLandmarkSet_intro (q0 q1 q2 q3 q4 q5 : point) :
  Point2D q0 -> Point2D q1 -> Point2D q2 ->
  Point2D q3 -> Point2D q4 -> Point2D q5 ->
  EyeLandmarkSet [q0; q1; q2; q3; q4; q5].
Proof.
  intros. split; [reflexivity |]. repeat constructor; assumption.
Qed.

Lemma generate_eye_points_set (cx cy w h : R) :
  EyeLandmarkSet (generate_eye_points cx cy w h).
Proof. apply EyeLandmarkSet_intro; reflexivity. Qed.

(** ** What the two functions compute *)

Lemma calculate_distance_euclid (q1 q2 : point) :
  Point2D q1 -> Point2D q2 -> calculate_distance q1 q2 = Ok (euclid q1 q2).
Proof.
  intros H1 H2.
  destruct (Point2D_inv q1 H1) as (x1 & y1 & ->).
  destruct (Point2D_inv q2 H2) as (x2 & y2 & ->).
  unfold calculate_distance, euclid, xc, yc, index, bind. cbn [nth_error nth].
  rewrite pow_half_sqrt by apply sum_squares_nonneg.
  f_equal. f_equal. unfold pow_two. ring.
Qed.

(** Only the entries 0 to 5 of the list are read. *)
Lemma calculate_ear_prefix (p rest : eye) :
  length p = 6%nat -> calculate_ear (p ++ rest) = calculate_ear p.
Proof.
  intros Hlen.
  destruct p as [| q0 [| q1 [| q2 [| q3 [| q4 [| q5 [| q6 p]]]]]]];
    try discriminate.
  reflexivity.
Qed.

Lemma calculate_ear_spans (p : eye) :
  EyeLandmarkSet p ->
  calculate_ear p = float_div (span_A p + span_B p) (2 * span_C p).
Proof.
  intros Hp.
  six_points Hp.
  unfold calculate_ear, span_A, span_B, span_C, pt, index.
  cbn [nth_error nth bind].
  rewrite (calculate_distance_euclid q1 q5 H1 H5).
  rewrite (calculate_distance_euclid q2 q4 H2 H4).
  rewrite (calculate_distance_euclid q0 q3 H0 H3).
  reflexivity.
Qed.

Lemma euclid_nonneg (q1 q2 : point) : 0 <= euclid q1 q2.
Proof. apply sqrt_pos. Qed.


(** The distance of two explicit points, from a known square. *)
Lemma euclid_value (x1 y1 x2 y2 d : R) :
  0 <= d -> (x1 - x2) * (x1 - x2) + (y1 - y2) * (y1 - y2) = d * d ->
  euclid [x1; y1] [x2; y2] = d.
Proof.
  intros Hd Hsq. unfold euclid, xc, yc. cbn [nth].
  rewrite Hsq. now apply sqrt_square.
Qed.

Lemma euclid_pos_neq (q1 q2 : point) : euclid q1 q2 <> 0 -> 0 < euclid q1 q2.
Proof. intros H. pose proof (euclid_nonneg q1 q2). lra. Qed.

(** ** The sample inputs *)

Lemma sample_eye_set : EyeLandmarkSet sample_eye.
Proof. apply EyeLandmarkSet_intro; reflexivity. Qed.


Lemma sample_span_A : span_A sample_eye = 2.
Proof. apply euclid_value; lra. Qed.

Lemma sample_span_B : span_B sample_eye = 2.
Proof. apply euclid_value; lra. Qed.

Lemma sample_span_C : span_C sample_eye = 4.
Proof. apply euclid_value; lra. Qed.

Lemma sample_eye_ear : calculate_ear sample_eye = Ok (/ 2).
Proof.
  rewrite (calculate_ear_spans _ sample_eye_set).
  rewrite sample_span_A, sample_span_B, sample_span_C.
  rewrite float_div_ok by lra. f_equal. lra.
Qed.


Lemma long_eye_ear : calculate_ear long_eye = Ok (/ 2).
Proof.
  unfold long_eye. rewrite calculate_ear_prefix by reflexivity.
  apply sample_eye_ear.
Qed.

Lemma short_eye_ear : calculate_ear short_eye = Raise IndexError.
Proof. reflexivity. Qed.

(** ** The formula *)



(** ** Degenerate geometry *)




(** ** Wrong number of points *)

(** C3, the claim as stated fails: the seven-entry [long_eye] is accepted and
    a value is returned; and the five-entry [short_eye] is rejected with
    [IndexError], not with [InvalidInputError]. *)
Lemma wrong_length_not_invalid_input_error :
  (length long_eye <> 6%nat /\
   calculate_ear long_eye = Ok (/ 2) /\
   calculate_ear long_eye <> Raise InvalidInputError) /\
  (length short_eye <> 6%nat /\
   calculate_ear short_eye = Raise IndexError /\
   calculate_ear short_eye <> Raise InvalidInputError).
Proof.
  split; (split; [cbn; discriminate |]).
  - split; [exact long_eye_ear |]. rewrite long_eye_ear. discriminate.
  - split; [exact short_eye_ear |]. rewrite short_eye_ear. discriminate.
Qed.

(** C3, amended.  On every list with fewer than six entries, whatever the
    entries are, [calculate_ear] raises [IndexError] at the subscript [p[1]]
    or [p[5]], before any distance is computed. *)
Theorem calculate_ear_too_short (p : eye) :
  (length p < 6)%nat ->
  calculate_ear p = Raise IndexError.
Proof.
  intros Hlen.
  destruct p as [| q0 [| q1 [| q2 [| q3 [| q4 [| q5 p]]]]]];
    try reflexivity.
  cbn [length] in Hlen. lia.
Qed.

Lemma calculate_ear_too_short_witness :
  (length short_eye < 6)%nat /\ calculate_ear short_eye = Raise IndexError.
Proof.
  assert (H : (length short_eye < 6)%nat) by (cbn; lia).
  split; [exact H | exact (calculate_ear_too_short short_eye H)].
Defined.

(** ** Scaling *)







(** ** Sign of the result *)



(** ** Percentage difference *)

(** C9.  For every real [x <> 0] (so that [x + x <> 0] as well),
    [calculate_percentage_difference x x] returns [0]. *)
Theorem calculate_percentage_difference_same (x : R) :
  x <> 0 ->
  calculate_percentage_difference x x = Ok 0.
Proof.
  intros Hx. unfold calculate_percentage_difference.
  rewrite float_div_ok by lra. cbn [bind].
  f_equal.
  replace (x - x) with 0 by ring. rewrite Rabs_R0.
  unfold Rdiv. ring.
Qed.

Lemma calculate_percentage_difference_same_witness :
  / 2 <> 0 /\ calculate_percentage_difference (/ 2) (/ 2) = Ok 0.
Proof.
  assert (H : / 2 <> 0) by lra.
  split; [exact H | exact (calculate_percentage_difference_same (/ 2) H)].
Defined.

(** ** More than six points *)



(** ** The generated points *)

Section Generated.

Variables cx cy w h : R.

Local Abbreviation p := (generate_eye_points cx cy w h).

Lemma generated_span_A :
  span_A p = sqrt ((w / 4) * (w / 4) + (h / 2) * (h / 2)).
Proof.
  unfold span_A, pt, generate_eye_points, euclid, xc, yc. cbn [nth].
  f_equal. field.
Qed.

Lemma generated_span_B : 0 <= w -> span_B p = w / 4.
Proof.
  intros Hw. unfold span_B, pt, generate_eye_points. cbn [nth].
  apply euclid_value; [lra | field].
Qed.

Lemma generated_span_C :
  span_C p = sqrt ((w / 2) * (w / 2) + (h / 2) * (h / 2)).
Proof.
  unfold span_C, pt, generate_eye_points, euclid, xc, yc. cbn [nth].
  f_equal. field.
Qed.

(** The two corners of a generated eye are its entries 0 and 1. *)
Lemma generated_corner_distance :
  0 <= w -> yc (pt p 0) = yc (pt p 1) /\ euclid (pt p 0) (pt p 1) = w.
Proof.
  intros Hw. split; [reflexivity |].
  unfold pt, generate_eye_points. cbn [nth].
  apply euclid_value; [lra | field].
Qed.

(** Entry 3 of a generated eye is its bottom centre, half the height below
    the corner that is entry 0. *)
Lemma generated_reference_not_level : yc (pt p 3) - yc (pt p 0) = h / 2.
Proof. unfold pt, generate_eye_points, yc. cbn [nth]. lra. Qed.

Lemma generated_span_C_pos : 0 < w -> 0 < span_C p.
Proof.
  intros Hw. rewrite generated_span_C. apply sqrt_lt_R0. nra.
Qed.

Lemma calculate_ear_generated :
  0 < w -> calculate_ear p = Ok (generated_ear w h).
Proof.
  intros Hw.
  rewrite (calculate_ear_spans _ (generate_eye_points_set cx cy w h)).
  pose proof (generated_span_C_pos Hw) as HC.
  rewrite float_div_ok by lra.
  rewrite generated_span_A, generated_span_B, generated_span_C by lra.
  reflexivity.
Qed.

End Generated.

(** ** Position of the eye *)



(** What [simulate_old_behavior] prints: twice the same value, difference
    zero. *)
Lemma simulate_old_behavior_equal :
  simulate_old_behavior
  = Ok (OldReport (generated_ear 20 10) (generated_ear 20 10) 0).
Proof.
  unfold simulate_old_behavior.
  rewrite !calculate_ear_generated by lra. cbn [bind].
  do 2 f_equal.
  replace (generated_ear 20 10 - generated_ear 20 10) with 0 by ring.
  apply Rabs_R0.
Qed.

(** ** The reference span of a generated eye *)

(** C7, evaluated at [generate_eye_points 320 240 20 10]: entry 0 is
    [(310, 240)] and entry 3 is [(320, 245)]; their heights differ, and the
    reference span [C] that [calculate_distance] returns for them is
    [sqrt 125], which is not the width [20]. *)
Theorem generated_reference_span_not_width :
  let p := generate_eye_points 320 240 20 10 in
  (xc (pt p 0) = 310 /\ yc (pt p 0) = 240) /\
  (xc (pt p 3) = 320 /\ yc (pt p 3) = 245) /\
  yc (pt p 0) <> yc (pt p 3) /\
  calculate_distance (pt p 0) (pt p 3) = Ok (sqrt 125) /\
  sqrt 125 <> 20.
Proof.
  intros p. unfold p, pt, generate_eye_points, xc, yc. cbn [nth].
  split; [split; lra |]. split; [split; lra |]. split; [lra |]. split.
  - rewrite calculate_distance_euclid by reflexivity.
    f_equal. unfold euclid, xc, yc. cbn [nth]. f_equal. lra.
  - assert (H : sqrt 125 < sqrt (12 * 12)) by (apply sqrt_lt_1; lra).
    rewrite sqrt_square in H by lra. lra.
Qed.

(** ** Asymmetric eyes *)

Lemma sqrt_below (x u : R) : 0 <= x -> 0 <= u -> x < u * u -> sqrt x < u.
Proof.
  intros Hx Hu Hlt.
  rewrite <- (sqrt_square u Hu).
  apply sqrt_lt_1; nra.
Qed.

Lemma sqrt_above (x l : R) : 0 <= l -> l * l < x -> l < sqrt x.
Proof.
  intros Hl Hlt.
  rewrite <- (sqrt_square l Hl) at 1.
  apply sqrt_lt_1; nra.
Qed.

Lemma quotient_below (a c m : R) : 0 < c -> a < m * c -> a / c < m.
Proof.
  intros Hc Hlt.
  apply (Rmult_lt_reg_r c); [exact Hc |].
  unfold Rdiv. rewrite Rmult_assoc, Rinv_l by lra. lra.
Qed.

Lemma quotient_above (a c m : R) : 0 < c -> m * c < a -> m < a / c.
Proof.
  intros Hc Hlt.
  apply (Rmult_lt_reg_r c); [exact Hc |].
  unfold Rdiv. rewrite Rmult_assoc, Rinv_l by lra. lra.
Qed.

(** The narrower eye: [sqrt 43.7225 < 6.62] and [10.55 < sqrt 111.41]. *)
Lemma generated_ear_left_below : generated_ear 19 9.2 < 0.54.
Proof.
  unfold generated_ear.
  assert (HA : sqrt (19 / 4 * (19 / 4) + 9.2 / 2 * (9.2 / 2)) < 6.62)
    by (apply sqrt_below; lra).
  assert (HC : 10.55 < sqrt (19 / 2 * (19 / 2) + 9.2 / 2 * (9.2 / 2)))
    by (apply sqrt_above; lra).
  apply quotient_below; lra.
Qed.

(** The wider eye: [7.53 < sqrt 56.7225] and [sqrt 139.41 < 11.81]. *)
Lemma generated_ear_right_above : 0.54 < generated_ear 21 10.8.
Proof.
  unfold generated_ear.
  assert (HA : 7.53 < sqrt (21 / 4 * (21 / 4) + 10.8 / 2 * (10.8 / 2)))
    by (apply sqrt_above; lra).
  assert (HC : sqrt (21 / 2 * (21 / 2) + 10.8 / 2 * (10.8 / 2)) < 11.81)
    by (apply sqrt_below; lra).
  assert (HC0 : 0 <= sqrt (21 / 2 * (21 / 2) + 10.8 / 2 * (10.8 / 2)))
    by apply sqrt_pos.
  assert (HC1 : 10 < sqrt (21 / 2 * (21 / 2) + 10.8 / 2 * (10.8 / 2)))
    by (apply sqrt_above; lra).
  apply quotient_above; lra.
Qed.

Lemma generated_ear_pos (w h : R) : 0 < w -> 0 < generated_ear w h.
Proof.
  intros Hw. unfold generated_ear.
  assert (HC : 0 < sqrt (w / 2 * (w / 2) + h / 2 * (h / 2)))
    by (apply sqrt_lt_R0; nra).
  pose proof (sqrt_pos (w / 4 * (w / 4) + h / 2 * (h / 2))) as HA.
  apply Rmult_lt_0_compat; [lra |].
  apply Rinv_0_lt_compat. lra.
Qed.

(** C4.  The value [calculate_ear] returns on the left-eye points, generated
    from centre [(320, 240)], width [19.0] and height [9.2], differs from the
    one it returns on the right-eye points, generated from centre
    [(380, 240)], width [21.0] and height [10.8]: the absolute difference is
    positive.  These are the two values [simulate_new_behavior] reports. *)
Theorem asymmetric_eyes_differ :
  exists l r : R,
    calculate_ear (generate_eye_points 320 240 19 9.2) = Ok l /\
    calculate_ear (generate_eye_points 380 240 21 10.8) = Ok r /\
    0 < Rabs (l - r) /\
    exists pd : R,
      simulate_new_behavior = Ok (NewReport l r (Rabs (l - r)) pd).
Proof.
  exists (generated_ear 19 9.2), (generated_ear 21 10.8).
  pose proof generated_ear_left_below as Hl.
  pose proof generated_ear_right_above as Hr.
  pose proof (generated_ear_pos 19 9.2) as Hlpos.
  split; [apply calculate_ear_generated; lra |].
  split; [apply calculate_ear_generated; lra |].
  split; [apply Rabs_pos_lt; lra |].
  unfold simulate_new_behavior.
  replace (20 * 0.95) with 19 by lra.
  replace (10 * 0.92) with 9.2 by lra.
  replace (20 * 1.05) with 21 by lra.
  replace (10 * 1.08) with 10.8 by lra.
  rewrite !calculate_ear_generated by lra. cbn [bind].
  unfold calculate_percentage_difference.
  rewrite float_div_ok by lra. cbn [bind].
  eexists. reflexivity.
Qed.

(** * Further properties of the script *)

(** ** [calculate_distance] on arbitrary lists *)

Lemma calculate_distance_cons (x1 y1 x2 y2 : R) (r1 r2 : point) :
  calculate_distance (x1 :: y1 :: r1) (x2 :: y2 :: r2)
  = Ok (euclid (x1 :: y1 :: r1) (x2 :: y2 :: r2)).
Proof.
  unfold calculate_distance, euclid, xc, yc, index, bind. cbn [nth_error nth].
  rewrite pow_half_sqrt by apply sum_squares_nonneg.
  f_equal. f_equal. unfold pow_two. ring.
Qed.

Lemma calculate_distance_long (p1 p2 : point) :
  (2 <= length p1)%nat -> (2 <= length p2)%nat ->
  calculate_distance p1 p2 = Ok (euclid p1 p2).
Proof.
  intros H1 H2.
  destruct p1 as [| x1 [| y1 r1]]; cbn [length] in H1; try lia.
  destruct p2 as [| x2 [| y2 r2]]; cbn [length] in H2; try lia.
  apply calculate_distance_cons.
Qed.

Lemma calculate_distance_short (p1 p2 : point) :
  (length p1 < 2 \/ length p2 < 2)%nat ->
  calculate_distance p1 p2 = Raise IndexError.
Proof.
  intros H.
  destruct p1 as [| x1 [| y1 r1]]; destruct p2 as [| x2 [| y2 r2]];
    try reflexivity.
  cbn [length] in H. lia.
Qed.

Lemma euclid_sym (q1 q2 : point) : euclid q1 q2 = euclid q2 q1.
Proof. unfold euclid. f_equal. ring. Qed.








(** X1.  [calculate_distance] does not depend on the order of its two
    arguments, whatever lists they are: the same value, or [IndexError] both
    ways. *)
Theorem calculate_distance_sym (p1 p2 : point) :
  calculate_distance p1 p2 = calculate_distance p2 p1.
Proof.
  destruct (Nat.le_gt_cases 2 (length p1)) as [H1 | H1];
    destruct (Nat.le_gt_cases 2 (length p2)) as [H2 | H2].
  - rewrite !calculate_distance_long by assumption.
    f_equal. apply euclid_sym.
  - rewrite !calculate_distance_short by (now left + now right). reflexivity.
  - rewrite !calculate_distance_short by (now left + now right). reflexivity.
  - rewrite !calculate_distance_short by (now left + now right). reflexivity.
Qed.






(** ** [calculate_ear] on arbitrary lists *)


Lemma readable_cons (q0 q1 q2 q3 q4 q5 : point) (rest : eye) :
  readable (q0 :: q1 :: q2 :: q3 :: q4 :: q5 :: rest) <->
  (2 <= length q0 /\ 2 <= length q1 /\ 2 <= length q2 /\
   2 <= length q3 /\ 2 <= length q4 /\ 2 <= length q5)%nat.
Proof.
  unfold readable. cbn [firstn length]. split.
  - intros [_ H].
    repeat match goal with
           | H : Forall _ (_ :: _) |- _ => inversion H; subst; clear H
           end.
    repeat split; assumption.
  - intros (H0 & H1 & H2 & H3 & H4 & H5).
    split; [lia |]. repeat constructor; assumption.
Qed.





Lemma EyeLandmarkSet_readable (p : eye) : EyeLandmarkSet p -> readable p.
Proof.
  intros Hp. six_points Hp. apply readable_cons.
  unfold Point2D in *. lia.
Qed.


(** ** Invariances of [calculate_ear] *)






(** X7.  The result of [calculate_ear] does not depend on which end of a
    measured pair comes first, nor on which lid pair is numbered first:
    exchanging the entries 0 and 3, 1 and 5, 2 and 4, or exchanging the pair
    (1, 5) with the pair (2, 4), gives the same result. *)
Theorem calculate_ear_renumbering (p : eye) :
  EyeLandmarkSet p ->
  calculate_ear (swap_ends p) = calculate_ear p /\
  calculate_ear (swap_lids p) = calculate_ear p.
Proof.
  intros Hp. rewrite (calculate_ear_spans p Hp). six_points Hp.
  unfold swap_ends, swap_lids, pt. cbn [nth].
  rewrite !calculate_ear_spans by (apply EyeLandmarkSet_intro; assumption).
  unfold span_A, span_B, span_C, pt. cbn [nth].
  split.
  - now rewrite (euclid_sym q5 q1), (euclid_sym q4 q2), (euclid_sym q3 q0).
  - now rewrite (Rplus_comm (euclid q2 q4)).
Qed.

Lemma calculate_ear_renumbering_witness :
  EyeLandmarkSet sample_eye /\
  calculate_ear (swap_ends sample_eye) = calculate_ear sample_eye /\
  calculate_ear (swap_lids sample_eye) = calculate_ear sample_eye.
Proof.
  split; [exact sample_eye_set |].
  exact (calculate_ear_renumbering sample_eye sample_eye_set).
Defined.

(** ** The value of the ratio *)










(** ** Generated eyes of any width and height *)




Section GeneratedAny.

Variables cx cy w h : R.

Local Abbreviation p := (generate_eye_points cx cy w h).




End GeneratedAny.











(** ** Shape of the generated points *)






(** ** [calculate_percentage_difference] *)

Lemma float_div_raise (a b : R) (e : exception) :
  float_div a b = Raise e -> e = ZeroDivisionError /\ b = 0.
Proof.
  unfold float_div. destruct (Req_dec_T b 0) as [E | N].
  - intros H. injection H as <-. now split.
  - discriminate.
Qed.



(** X16.  [calculate_percentage_difference] does not depend on the order of
    its two arguments: the same value, or [ZeroDivisionError] both ways. *)
Theorem calculate_percentage_difference_sym (a b : R) :
  calculate_percentage_difference a b = calculate_percentage_difference b a.
Proof.
  unfold calculate_percentage_difference.
  rewrite (Rabs_minus_sym a b), (Rplus_comm a b). reflexivity.
Qed.







